(** * prow/plugins/merge: the "/merge" comment command and the
      "ok-to-merge" label

    A shallow embedding of [prow/plugins/merge/merge.go] and the properties
    of its event filter, command matcher, label reconciler and repository
    scope resolver.

    Strings are byte strings ([string] of the Standard Library), Go's [int]
    is [Z], Go's [error] is an optional message, and the GitHub client is an
    interface record whose methods thread the client's own state.  Every
    call the handler makes on the client, and every line it logs, is
    recorded in order in the trace of the run. *)

From Stdlib Require Import Bool Arith Lia List ZArith.
From Stdlib Require Import Ascii String.
Import ListNotations.

Set Implicit Arguments.

Local Open Scope string_scope.
Local Open Scope bool_scope.

(* ===================================================================== *)
(** * The fragment of Go's [regexp] that the two patterns use *)
(* ===================================================================== *)

Module regexp.

(** Line feed, the only byte that ends a line under the [m] flag. *)
Definition LF : ascii := "010"%char.

(** The Perl class [\s] of RE2: tab, line feed, form feed, carriage
    return and space (the vertical tab is not in it). *)
Definition perlSpace (c : ascii) : bool :=
  (c =? "009")%char || (c =? "010")%char || (c =? "012")%char
  || (c =? "013")%char || (c =? " ")%char.

(** Simple case folding on one byte.  The letters of the two patterns
    (m, e, r, g, c, a, n, l) fold only to their ASCII upper case; the
    bytes of a multi-byte rune are above 127 and never equal a pattern
    byte or a line feed, so matching bytes agrees with matching runes. *)
Definition toLower (c : ascii) : ascii :=
  let n := nat_of_ascii c in
  if ((65 <=? n)%nat && (n <=? 90)%nat) then ascii_of_nat (n + 32) else c.

Definition foldEq (a b : ascii) : bool :=
  (toLower a =? toLower b)%char.

(** The operators of a parsed pattern, with the flags applied:
    [OpBeginLine] and [OpEndLine] are [^] and [$] under [m],
    [OpLiteral true] is a literal under [i], [OpStar cls] is [cls*]. *)
Inductive Op : Type :=
| OpBeginLine
| OpEndLine
| OpLiteral (foldCase : bool) (lit : string)
| OpStar (cls : ascii -> bool).

(** A pattern is the concatenation of its operators. *)
Definition Regexp : Type := list Op.

(** [^] under [m]: at the start of the text or just after a line feed.
    [prev] is the byte before the position, if any. *)
Definition atBeginLine (prev : option ascii) : bool :=
  match prev with
  | None => true
  | Some c => (c =? LF)%char
  end.

(** [$] under [m]: at the end of the text or just before a line feed. *)
Definition atEndLine (s : string) : bool :=
  match s with
  | EmptyString => true
  | String c _ => (c =? LF)%char
  end.

(** Consume the literal [lit] at the head of [s]; the result is the
    byte before the new position and the rest of the text. *)
Fixpoint eatLiteral (foldCase : bool) (lit : string)
         (prev : option ascii) (s : string) : option (option ascii * string) :=
  match lit with
  | EmptyString => Some (prev, s)
  | String a lit' =>
      match s with
      | EmptyString => None
      | String c s' =>
          if (if foldCase then foldEq a c else (a =? c)%char)
          then eatLiteral foldCase lit' (Some c) s'
          else None
      end
  end.

(** Does the pattern match a prefix of [s], at a position preceded by
    [prev]? *)
Fixpoint matchAt (re : Regexp) : option ascii -> string -> bool :=
  match re with
  | [] => fun _ _ => true
  | OpBeginLine :: k => fun prev s => atBeginLine prev && matchAt k prev s
  | OpEndLine :: k => fun prev s => atEndLine s && matchAt k prev s
  | OpLiteral foldCase lit :: k =>
      fun prev s =>
        match eatLiteral foldCase lit prev s with
        | Some (prev', s') => matchAt k prev' s'
        | None => false
        end
  | OpStar cls :: k =>
      fix star (prev : option ascii) (s : string) {struct s} : bool :=
        matchAt k prev s
        || match s with
           | EmptyString => false
           | String c s' => cls c && star (Some c) s'
           end
  end.

(** The unanchored search: try every position from the current one. *)
Fixpoint searchFrom (re : Regexp) (prev : option ascii) (s : string) : bool :=
  matchAt re prev s
  || match s with
     | EmptyString => false
     | String c s' => searchFrom re (Some c) s'
     end.

(** The method [MatchString] of a compiled pattern: does the text contain
    any match? *)
Definition MatchString (re : Regexp) (s : string) : bool :=
  searchFrom re None s.

End regexp.

(* ===================================================================== *)
(** * The parts of [prow/github] and [prow/plugins] the plugin consumes *)
(* ===================================================================== *)

(** Go's [error]: [None] is [nil], [Some msg] an error with its message. *)
Definition error : Type := option string.

Module github.

(** Modelled from the spec: the declaration of [github.Label] is not
    among the sources; a label is known by its name. *)
Record Label : Type := { LabelName : string }.

(** Modelled from the spec: [github.User], of which the login is read. *)
Record User : Type := { Login : string }.

(** Modelled from the spec: [github.Repo], "repository {owner, name}". *)
Record Repo : Type := { Owner : User; Name : string }.

(** Modelled from the spec: "action enum (created/edited/deleted)". *)
Inductive GenericCommentEventAction : Type :=
| GenericCommentActionCreated
| GenericCommentActionEdited
| GenericCommentActionDeleted.

Definition actionEqb (a b : GenericCommentEventAction) : bool :=
  match a, b with
  | GenericCommentActionCreated, GenericCommentActionCreated => true
  | GenericCommentActionEdited, GenericCommentActionEdited => true
  | GenericCommentActionDeleted, GenericCommentActionDeleted => true
  | _, _ => false
  end.

(** Modelled from the spec: the consumed fields of
    [github.GenericCommentEvent].  [EventRepo] and [EventUser] are the Go
    fields [Repo] and [User]. *)
Record GenericCommentEvent : Type := {
  IsPR : bool;
  Action : GenericCommentEventAction;
  Body : string;
  HTMLURL : string;
  Number : Z;
  EventRepo : Repo;
  EventUser : User;
  IssueAuthor : User;
  IssueState : string
}.

(** Modelled from the spec: [github.HasLabel] is not among the sources;
    "has = label set contains ok-to-merge".  The handler below takes the
    function as a parameter; this one instantiates it in the examples. *)
Definition HasLabel (label : string) (issueLabels : list Label) : bool :=
  existsb (fun l => (LabelName l =? label)%string) issueLabels.

End github.

Module plugins.

(** Modelled from the spec: [plugins.Merge], an entry "naming a set of
    org or org/repo strings it applies to". *)
Record Merge : Type := { Repos : list string }.

(** Modelled from the spec: the part of [plugins.Configuration] read
    here, the ordered list that Go names [Merge]. *)
Record Configuration : Type := { ConfigMerge : list Merge }.

End plugins.

Import github plugins.

(* ===================================================================== *)
(** * Package [merge] *)
(* ===================================================================== *)

Definition pluginName : string := "merge".

Definition mergeLabel : string := "ok-to-merge".

(** [regexp.MustCompile(`(?mi)^/merge\s*$`)] *)
Definition mergeRe : regexp.Regexp :=
  [regexp.OpBeginLine; regexp.OpLiteral true "/merge";
   regexp.OpStar regexp.perlSpace; regexp.OpEndLine].

(** [regexp.MustCompile(`(?mi)^/merge cancel\s*$`)] *)
Definition mergeCancelRe : regexp.Regexp :=
  [regexp.OpBeginLine; regexp.OpLiteral true "/merge cancel";
   regexp.OpStar regexp.perlSpace; regexp.OpEndLine].

(** ** optionsForRepo *)

Fixpoint strInSlice (str : string) (slice : list string) : bool :=
  match slice with
  | [] => false
  | elem :: rest => if (elem =? str)%string then true else strInSlice str rest
  end.

(** What [optionsForRepo] returns: the address of the [i]-th entry of
    [config.Merge], or the address of a fresh value. *)
Inductive MergePtr : Type :=
| AddrOfConfigMerge (i : nat)
| AddrOfNew (m : Merge).

(** The loop [for i := range config.Merge], from index [i] on. *)
Fixpoint optionsForRepoFrom (i : nat) (entries : list Merge)
         (org fullName : string) : MergePtr :=
  match entries with
  | [] => AddrOfNew {| Repos := [] |}
  | m :: rest =>
      if negb (strInSlice org (Repos m)) && negb (strInSlice fullName (Repos m))
      then optionsForRepoFrom (S i) rest org fullName
      else AddrOfConfigMerge i
  end.

Definition optionsForRepo (config : Configuration) (org repo : string) : MergePtr :=
  let fullName := org ++ "/" ++ repo in
  optionsForRepoFrom 0 (ConfigMerge config) org fullName.

(** The value a returned pointer points to. *)
Definition load (config : Configuration) (p : MergePtr) : option Merge :=
  match p with
  | AddrOfConfigMerge i => nth_error (ConfigMerge config) i
  | AddrOfNew m => Some m
  end.

(** ** The client, and the record of what a run does *)

(** One call on the [githubClient] interface, with its arguments. *)
Inductive Call : Type :=
| CallIsCollaborator (owner repo login : string)
| CallAddLabel (owner repo : string) (number : Z) (label : string)
| CallRemoveLabel (owner repo : string) (number : Z) (label : string)
| CallGetIssueLabels (org repo : string) (number : Z)
| CallGetPullRequest (org repo : string) (number : Z)
| CallListIssueComments (org repo : string) (number : Z)
| CallDeleteComment (org repo : string) (ID : Z)
| CallBotName.

(** One line given to the logger: [log.Info(msg)], or
    [log.WithError(err).Errorf(format, org, repo, number)]. *)
Inductive LogEntry : Type :=
| LogInfo (msg : string)
| LogErrorf (err : string) (format : string) (org repo : string) (number : Z).

Inductive Event : Type :=
| ClientCall (c : Call)
| Logged (l : LogEntry).

Fixpoint callsOf (tr : list Event) : list Call :=
  match tr with
  | [] => []
  | ClientCall c :: rest => c :: callsOf rest
  | Logged _ :: rest => callsOf rest
  end.

Definition isAddLabel (c : Call) : bool :=
  match c with CallAddLabel _ _ _ _ => true | _ => false end.

Definition isRemoveLabel (c : Call) : bool :=
  match c with CallRemoveLabel _ _ _ _ => true | _ => false end.

Definition countCalls (p : Call -> bool) (tr : list Event) : nat :=
  List.length (filter p (callsOf tr)).

(** The interface [githubClient].  [St] is the state behind the client
    (the remote repository as the client sees it); a method takes the state
    and gives its results and the next state.  [PullRequest] and
    [IssueComment] stand for the two payload types the handler never
    looks at. *)
Record githubClient (St PullRequest IssueComment : Type) : Type := {
  IsCollaborator : string -> string -> string -> St -> (bool * error) * St;
  AddLabel : string -> string -> Z -> string -> St -> error * St;
  RemoveLabel : string -> string -> Z -> string -> St -> error * St;
  GetIssueLabels : string -> string -> Z -> St -> (list Label * error) * St;
  GetPullRequest : string -> string -> Z -> St -> (option PullRequest * error) * St;
  ListIssueComments : string -> string -> Z -> St -> (list IssueComment * error) * St;
  DeleteComment : string -> string -> Z -> St -> error * St;
  BotName : St -> (string * error) * St
}.

(** reviewCtx contains information about each review event *)
Record reviewCtx : Type := {
  author : string;
  issueAuthor : string;
  body : string;
  htmlURL : string;
  repo : Repo;
  number : Z
}.

(** What a run gives: the value returned, the client's state at the end,
    and the calls and log lines of the run, oldest first. *)
Record Outcome (St A : Type) : Type := {
  result : A;
  state : St;
  trace : list Event
}.

(** A computation against the client. *)
Definition M (St A : Type) : Type := St -> Outcome St A.

Definition ret {St A : Type} (a : A) : M St A :=
  fun s => {| result := a; state := s; trace := [] |}.

Definition bind {St A B : Type} (m : M St A) (k : A -> M St B) : M St B :=
  fun s =>
    let o1 := m s in
    let o2 := k (result o1) (state o1) in
    {| result := result o2; state := state o2; trace := trace o1 ++ trace o2 |}.

Declare Scope run_scope.
Delimit Scope run_scope with run.
Notation "x <- c1 ;; c2" := (bind c1 (fun x => c2))
  (at level 61, c1 at next level, right associativity) : run_scope.
Notation "c1 ;;; c2" := (bind c1 (fun _ => c2))
  (at level 61, right associativity) : run_scope.

Definition logInfo {St : Type} (msg : string) : M St unit :=
  fun s => {| result := tt; state := s; trace := [Logged (LogInfo msg)] |}.

Definition logErrorf {St : Type} (err : string) (format : string)
           (org repoName : string) (number : Z) : M St unit :=
  fun s => {| result := tt; state := s;
              trace := [Logged (LogErrorf err format org repoName number)] |}.

(** The events of the read: the call, and the log line when it failed. *)
Definition readEvents (org repoName : string) (number : Z) (err : error)
  : list Event :=
  ClientCall (CallGetIssueLabels org repoName number)
  :: match err with
     | Some e => [Logged (LogErrorf e "Failed to get the labels on %s/%s#%d."
                                    org repoName number)]
     | None => []
     end.

(** ** The handler *)

Section Handler.

Context {St PullRequest IssueComment : Type}.

(** [github.HasLabel], whose body is not among the sources: every
    property below holds whatever it computes, except where a hypothesis
    says what it answers on the empty slice. *)
Variable HasLabel : string -> list Label -> bool.

Local Open Scope run_scope.

(** The three methods the handler calls; each call is recorded. *)
Definition callGetIssueLabels (gc : githubClient St PullRequest IssueComment)
           (org repoName : string) (number : Z)
  : M St (list Label * error) :=
  fun s =>
    let (r, s') := GetIssueLabels gc org repoName number s in
    {| result := r; state := s';
       trace := [ClientCall (CallGetIssueLabels org repoName number)] |}.

Definition callAddLabel (gc : githubClient St PullRequest IssueComment)
           (org repoName : string) (number : Z) (label : string)
  : M St error :=
  fun s =>
    let (r, s') := AddLabel gc org repoName number label s in
    {| result := r; state := s';
       trace := [ClientCall (CallAddLabel org repoName number label)] |}.

Definition callRemoveLabel (gc : githubClient St PullRequest IssueComment)
           (org repoName : string) (number : Z) (label : string)
  : M St error :=
  fun s =>
    let (r, s') := RemoveLabel gc org repoName number label s in
    {| result := r; state := s';
       trace := [ClientCall (CallRemoveLabel org repoName number label)] |}.

(** [ownersClient] and [log] are left out of the parameters: the first is
    never used, the second is the log part of the trace. *)
Definition handle (wantMerge : bool) (config : Configuration)
           (rc : reviewCtx) (gc : githubClient St PullRequest IssueComment)
  : M St error :=
  let number := number rc in
  let org := Login (Owner (repo rc)) in
  let repoName := Name (repo rc) in
  (* Only add the label if it doesn't have it, and vice versa. *)
  fetched <- callGetIssueLabels gc org repoName number ;;
  let labels := fst fetched in
  let err := snd fetched in
  match err with
  | Some e => logErrorf e "Failed to get the labels on %s/%s#%d."
                        org repoName number
  | None => ret tt
  end ;;;
  let has := HasLabel mergeLabel labels in
  if has && negb wantMerge then
    logInfo "Removing merge label." ;;;
    callRemoveLabel gc org repoName number mergeLabel
  else if negb has && wantMerge then
    logInfo "Adding merge label." ;;;
    err <- callAddLabel gc org repoName number mergeLabel ;;
    match err with
    | Some e => ret (Some e)
    | None => ret None
    end
  else ret None.

Definition handleGenericComment (gc : githubClient St PullRequest IssueComment)
           (config : Configuration) (e : GenericCommentEvent) : M St error :=
  let rc := {| author := Login (EventUser e);
               issueAuthor := Login (IssueAuthor e);
               body := Body e;
               htmlURL := HTMLURL e;
               repo := EventRepo e;
               number := Number e |} in
  (* Only consider open PRs and new comments. *)
  if negb (IsPR e) || negb (IssueState e =? "open")%string
     || negb (actionEqb (Action e) GenericCommentActionCreated)
  then ret None
  else
    (* If we create a "/merge" comment, add merge label if necessary.
       If we create a "/merge cancel" comment, remove merge label if
       necessary. *)
    match (if regexp.MatchString mergeRe (body rc) then Some true
           else if regexp.MatchString mergeCancelRe (body rc) then Some false
           else None) with
    | Some wantMerge => handle wantMerge config rc gc
    | None => ret None
    end.

(** The part of [plugins.PluginClient] the registered handler reads. *)
Record PluginClient : Type := {
  GitHubClient : githubClient St PullRequest IssueComment;
  PluginConfig : Configuration
}.

Definition handleGenericCommentEvent (pc : PluginClient)
           (e : GenericCommentEvent) : M St error :=
  handleGenericComment (GitHubClient pc) (PluginConfig pc) e.

End Handler.

(* ===================================================================== *)
(** * The words of the specification *)
(* ===================================================================== *)

(** The lines of a text: the pieces between its line feeds. *)
Fixpoint splitLines (s : string) : list string :=
  match s with
  | EmptyString => [EmptyString]
  | String c s' =>
      if (c =? regexp.LF)%char then EmptyString :: splitLines s'
      else match splitLines s' with
           | l :: ls => String c l :: ls
           | [] => [String c EmptyString]
           end
  end.

(** White space that stays on its line: tab, form feed, carriage return
    and space. *)
Definition isBlank (c : ascii) : bool :=
  (c =? "009")%char || (c =? "012")%char || (c =? "013")%char || (c =? " ")%char.

Fixpoint allBlank (s : string) : bool :=
  match s with
  | EmptyString => true
  | String c s' => isBlank c && allBlank s'
  end.

(** The line [l] is the command [cmd], in any letter case, from its first
    column on, followed by blanks only. *)
Fixpoint commandLine (cmd l : string) : bool :=
  match cmd with
  | EmptyString => allBlank l
  | String a cmd' =>
      match l with
      | EmptyString => false
      | String c l' => regexp.foldEq a c && commandLine cmd' l'
      end
  end.

(** The text has a line that is the command alone. *)
Definition standalone (cmd text : string) : bool :=
  existsb (commandLine cmd) (splitLines text).

(** Two strings equal up to letter case. *)
Fixpoint equalFold (a b : string) : bool :=
  match a, b with
  | EmptyString, EmptyString => true
  | String x a', String y b' => regexp.foldEq x y && equalFold a' b'
  | _, _ => false
  end.

(** The first line of a text, and a text without line feed. *)
Fixpoint firstLine (s : string) : string :=
  match s with
  | EmptyString => EmptyString
  | String c s' => if (c =? regexp.LF)%char then EmptyString
                   else String c (firstLine s')
  end.

Fixpoint noLF (s : string) : bool :=
  match s with
  | EmptyString => true
  | String c s' => negb (c =? regexp.LF)%char && noLF s'
  end.

(** The shape the two patterns share: [(?mi)^cmd\s*$]. *)
Definition commandRe (cmd : string) : regexp.Regexp :=
  [regexp.OpBeginLine; regexp.OpLiteral true cmd;
   regexp.OpStar regexp.perlSpace; regexp.OpEndLine].

(** An event the filter lets through. *)
Definition eligible (e : GenericCommentEvent) : Prop :=
  IsPR e = true /\ IssueState e = "open"
  /\ Action e = GenericCommentActionCreated.

(** The review context the handler builds from an event. *)
Definition contextOf (e : GenericCommentEvent) : reviewCtx :=
  {| author := Login (EventUser e);
     issueAuthor := Login (IssueAuthor e);
     body := Body e;
     htmlURL := HTMLURL e;
     repo := EventRepo e;
     number := Number e |}.

(** A configuration entry applies to a repository when its list names the
    organisation or the full name. *)
Definition entryApplies (org repo : string) (m : Merge) : Prop :=
  In org (Repos m) \/ In (org ++ "/" ++ repo) (Repos m).


(* ===================================================================== *)
(** * A client to run the handler against *)
(* ===================================================================== *)

(** A client in the manner of prow's fake: its state is the list of labels
    on the issue; each method can be set to fail with a given error.  A
    failing read returns the nil slice with its error. *)
Definition removeLabelNamed (label : string) (ls : list Label) : list Label :=
  filter (fun l => negb (LabelName l =? label)%string) ls.

Definition fakeClient (getErr addErr removeErr : error)
  : githubClient (list Label) unit unit :=
  {| IsCollaborator := fun _ _ _ s => ((true, None), s);
     AddLabel := fun _ _ _ label s =>
       match addErr with
       | Some e => (Some e, s)
       | None => (None, (s ++ [{| LabelName := label |}])%list)
       end;
     RemoveLabel := fun _ _ _ label s =>
       match removeErr with
       | Some e => (Some e, s)
       | None => (None, removeLabelNamed label s)
       end;
     GetIssueLabels := fun _ _ _ s =>
       match getErr with
       | Some e => (([], Some e), s)
       | None => ((s, None), s)
       end;
     GetPullRequest := fun _ _ _ s => ((None, None), s);
     ListIssueComments := fun _ _ _ s => (([], None), s);
     DeleteComment := fun _ _ _ s => (None, s);
     BotName := fun s => (("k8s-ci-robot", None), s) |}.

(** A comment event on number 5 of kubernetes/test-infra. *)
Definition eventOf (isPR : bool) (issueState : string)
           (action : GenericCommentEventAction) (body : string)
  : GenericCommentEvent :=
  {| IsPR := isPR;
     Action := action;
     Body := body;
     HTMLURL := "https://github.com/kubernetes/test-infra/pull/5#issuecomment-1";
     Number := 5%Z;
     EventRepo := {| Owner := {| Login := "kubernetes" |}; Name := "test-infra" |};
     EventUser := {| Login := "alice" |};
     IssueAuthor := {| Login := "bob" |};
     IssueState := issueState |}.

(** The same on an open pull request, the comment just created. *)
Definition commentOn (body : string) : GenericCommentEvent :=
  eventOf true "open" GenericCommentActionCreated body.

(** The end of a line as GitHub sends it, and a bare line feed. *)
Definition crlf : string := String "013"%char (String "010"%char EmptyString).
Definition lf : string := String "010"%char EmptyString.

Definition okToMerge : Label := {| LabelName := "ok-to-merge" |}.

(** The three calls the handler can make on that pull request. *)
Definition GET : Call := CallGetIssueLabels "kubernetes" "test-infra" 5.
Definition ADD : Call := CallAddLabel "kubernetes" "test-infra" 5 "ok-to-merge".
Definition REMOVE : Call :=
  CallRemoveLabel "kubernetes" "test-infra" 5 "ok-to-merge".

Definition noConfig : Configuration := {| ConfigMerge := [] |}.

(** The configuration list of the scoping example. *)
Definition scopingExample : Configuration :=
  {| ConfigMerge := [ {| Repos := ["orgA"] |}; {| Repos := ["orgB/repoX"] |} ] |}.

(* ===================================================================== *)
(** * The rest of the package *)
(* ===================================================================== *)

Module pluginhelp.

(** Modelled from the spec: [pluginhelp.Command], "one documented command
    with usage text, example invocations, and an audience string". *)
Record Command : Type := {
  Usage : string;
  Description : string;
  Featured : bool;
  WhoCanUse : string;
  Examples : list string
}.

(** Modelled from the spec: [pluginhelp.PluginHelp], of which the
    description and the commands are filled in here.  [HelpDescription] is
    the Go field [Description]. *)
Record PluginHelp : Type := {
  HelpDescription : string;
  Commands : list Command
}.

(** Modelled from the spec: [AddCommand] adds the command after those
    already there. *)
Definition AddCommand (pluginHelp : PluginHelp) (command : Command) : PluginHelp :=
  {| HelpDescription := HelpDescription pluginHelp;
     Commands := Commands pluginHelp ++ [command] |}.

End pluginhelp.

(** The Config field is omitted because this plugin is not configurable. *)
Definition helpProvider (config : Configuration) (enabledRepos : list string)
  : pluginhelp.PluginHelp * error :=
  let pluginHelp :=
    {| pluginhelp.HelpDescription :=
         "The merge plugin manages the application and removal of the 'ok-to-merge' label which is typically used to gate merging.";
       pluginhelp.Commands := [] |} in
  let pluginHelp :=
    pluginhelp.AddCommand pluginHelp
      {| pluginhelp.Usage := "/merge [cancel]";
         pluginhelp.Description :=
           "Adds or removes the 'ok-to-merge' label which is typically used to gate merging.";
         pluginhelp.Featured := true;
         pluginhelp.WhoCanUse :=
           "Collaborators on the repository and the PR author.";
         pluginhelp.Examples := ["/merge"; "/merge cancel"] |} in
  (pluginHelp, None).

(** Modelled from the spec: the part of [plugins.Configuration] that
    [skipCollaborators] reads, [config.Owners.SkipCollaborators]. *)
Record Owners : Type := { SkipCollaborators : list string }.

Record OwnersConfiguration : Type := { ConfigOwners : Owners }.

Fixpoint skipCollaboratorsIn (elems : list string) (org full : string) : bool :=
  match elems with
  | [] => false
  | elem :: rest =>
      if (elem =? org)%string || (elem =? full)%string then true
      else skipCollaboratorsIn rest org full
  end.

Definition skipCollaborators (config : OwnersConfiguration) (org repo : string)
  : bool :=
  let full := org ++ "/" ++ repo in
  skipCollaboratorsIn (SkipCollaborators (ConfigOwners config)) org full.

(** A text with every line feed turned into carriage return, line feed. *)
Fixpoint toCRLF (s : string) : string :=
  match s with
  | EmptyString => EmptyString
  | String c s' =>
      if (c =? regexp.LF)%char
      then String "013"%char (String regexp.LF (toCRLF s'))
      else String c (toCRLF s')
  end.

Fixpoint noCR (s : string) : bool :=
  match s with
  | EmptyString => true
  | String c s' => negb (c =? "013")%char && noCR s'
  end.

(** A client that keeps its word about labels: reading changes nothing,
    and after a write that succeeded the next read shows it. *)
Record keepsLabels {St PullRequest IssueComment : Type}
       (HasLabel : string -> list Label -> bool)
       (gc : githubClient St PullRequest IssueComment) : Prop := {
  read_only : forall org repoName number s,
      snd (GetIssueLabels gc org repoName number s) = s;
  added_shows : forall org repoName number label s,
      fst (AddLabel gc org repoName number label s) = None ->
      HasLabel label
        (fst (fst (GetIssueLabels gc org repoName number
                     (snd (AddLabel gc org repoName number label s))))) = true;
  removed_shows : forall org repoName number label s,
      fst (RemoveLabel gc org repoName number label s) = None ->
      HasLabel label
        (fst (fst (GetIssueLabels gc org repoName number
                     (snd (RemoveLabel gc org repoName number label s))))) = false
}.

(** A comment by [login] on an open pull request of another author. *)
Definition commentBy (login body : string) : GenericCommentEvent :=
  {| IsPR := true;
     Action := GenericCommentActionCreated;
     Body := body;
     HTMLURL := "https://github.com/kubernetes/test-infra/pull/5#issuecomment-2";
     Number := 5%Z;
     EventRepo := {| Owner := {| Login := "kubernetes" |}; Name := "test-infra" |};
     EventUser := {| Login := login |};
     IssueAuthor := {| Login := "carol" |};
     IssueState := "open" |}.


(* ===================================================================== *)
(** * The command matcher *)
(* ===================================================================== *)

Section CommandMatcher.

Import regexp.

Lemma toLower_LF (c : ascii) : toLower c = LF -> c = LF.
Proof.
  destruct c as [[] [] [] [] [] [] [] []]; vm_compute; intro H;
    first [reflexivity | discriminate H].
Qed.

Lemma foldEq_notLF (a c : ascii) :
  foldEq a c = true -> (a =? LF)%char = false -> (c =? LF)%char = false.
Proof.
  unfold foldEq. intros Hf Ha.
  apply Ascii.eqb_eq in Hf.
  destruct (c =? LF)%char eqn:Hc; [|reflexivity].
  apply Ascii.eqb_eq in Hc. subst c.
  assert (a = LF) by (apply toLower_LF; rewrite Hf; reflexivity).
  subst a. discriminate Ha.
Qed.

Lemma perlSpace_split (c : ascii) :
  perlSpace c = (c =? LF)%char || isBlank c.
Proof.
  unfold perlSpace, isBlank, LF.
  destruct (c =? "009")%char, (c =? "010")%char, (c =? "012")%char,
    (c =? "013")%char, (c =? " ")%char; reflexivity.
Qed.

Lemma splitLines_shape (s : string) :
  splitLines s = firstLine s :: tl (splitLines s).
Proof.
  induction s as [|c s IH]; simpl; [reflexivity|].
  destruct (c =? LF)%char; [reflexivity|].
  rewrite IH. reflexivity.
Qed.

Lemma splitLines_LF (s : string) :
  splitLines (String LF s) = EmptyString :: splitLines s.
Proof. reflexivity. Qed.

Lemma tl_splitLines_other (c : ascii) (s : string) :
  (c =? LF)%char = false ->
  tl (splitLines (String c s)) = tl (splitLines s).
Proof.
  intro Hc. simpl. rewrite Hc. rewrite (splitLines_shape s). reflexivity.
Qed.

(** After the command, [\s*$] asks for blanks up to the end of the line. *)
Lemma star_space_end (s : string) (prev : option ascii) :
  matchAt [OpStar perlSpace; OpEndLine] prev s = allBlank (firstLine s).
Proof.
  revert prev. induction s as [|c s IH]; intro prev; [reflexivity|].
  specialize (IH (Some c)).
  cbn [matchAt atEndLine firstLine] in *.
  rewrite IH, perlSpace_split.
  destruct (c =? LF)%char; simpl; reflexivity.
Qed.

(** Eating the command and then the blanks is reading a command line. *)
Lemma literal_then_blanks (cmd : string) :
  noLF cmd = true ->
  forall (prev : option ascii) (s : string),
    match eatLiteral true cmd prev s with
    | Some (prev', s') => matchAt [OpStar perlSpace; OpEndLine] prev' s'
    | None => false
    end = commandLine cmd (firstLine s).
Proof.
  induction cmd as [|a cmd IH]; intros Hno prev s.
  - cbn [eatLiteral commandLine]. apply star_space_end.
  - cbn [noLF] in Hno. apply andb_true_iff in Hno as [Ha Hno].
    apply negb_true_iff in Ha.
    destruct s as [|c s]; [reflexivity|].
    cbn [eatLiteral firstLine].
    destruct (foldEq a c) eqn:Hf.
    + rewrite (foldEq_notLF _ _ Hf Ha).
      cbn [commandLine]. rewrite Hf. apply IH, Hno.
    + destruct (c =? LF)%char; cbn [commandLine]; [reflexivity|].
      rewrite Hf. reflexivity.
Qed.

Lemma matchAt_commandRe (cmd : string) (prev : option ascii) (s : string) :
  noLF cmd = true ->
  matchAt (commandRe cmd) prev s
  = atBeginLine prev && commandLine cmd (firstLine s).
Proof.
  intro Hno. unfold commandRe.
  change (matchAt (OpBeginLine :: OpLiteral true cmd
                     :: [OpStar perlSpace; OpEndLine]) prev s)
    with (atBeginLine prev
          && match eatLiteral true cmd prev s with
             | Some (prev', s') => matchAt [OpStar perlSpace; OpEndLine] prev' s'
             | None => false
             end).
  rewrite literal_then_blanks by exact Hno. reflexivity.
Qed.

Lemma searchFrom_commandRe (cmd : string) :
  noLF cmd = true ->
  forall (s : string) (prev : option ascii),
    searchFrom (commandRe cmd) prev s
    = (atBeginLine prev && commandLine cmd (firstLine s))
      || existsb (commandLine cmd) (tl (splitLines s)).
Proof.
  intros Hno s. induction s as [|c s IH]; intro prev.
  - cbn [searchFrom]. rewrite matchAt_commandRe by exact Hno. reflexivity.
  - cbn [searchFrom]. rewrite matchAt_commandRe by exact Hno.
    rewrite IH. f_equal.
    cbn [atBeginLine].
    destruct (c =? LF)%char eqn:Hc.
    + apply Ascii.eqb_eq in Hc. subst c.
      rewrite splitLines_LF. cbn [tl].
      rewrite (splitLines_shape s) at 2. reflexivity.
    + rewrite (@tl_splitLines_other c s Hc). reflexivity.
Qed.

(** The pattern finds a match in a text exactly when the text has a line
    that is the command alone. *)
Lemma MatchString_commandRe (cmd text : string) :
  noLF cmd = true ->
  MatchString (commandRe cmd) text = standalone cmd text.
Proof.
  intro Hno. unfold MatchString, standalone.
  rewrite searchFrom_commandRe by exact Hno.
  rewrite (splitLines_shape text) at 2. reflexivity.
Qed.

(** On a single line the pattern and [commandLine] say the same. *)
Lemma firstLine_noLF (l : string) : noLF l = true -> firstLine l = l.
Proof.
  induction l as [|c l IH]; cbn [noLF firstLine]; [reflexivity|].
  intro H. apply andb_true_iff in H as [Hc Hl].
  apply negb_true_iff in Hc. rewrite Hc, (IH Hl). reflexivity.
Qed.

Lemma splitLines_noLF (l : string) : noLF l = true -> splitLines l = [l].
Proof.
  induction l as [|c l IH]; cbn [noLF splitLines]; [reflexivity|].
  intro H. apply andb_true_iff in H as [Hc Hl].
  apply negb_true_iff in Hc. rewrite Hc, (IH Hl). reflexivity.
Qed.

Lemma MatchString_one_line (cmd l : string) :
  noLF cmd = true -> noLF l = true ->
  MatchString (commandRe cmd) l = commandLine cmd l.
Proof.
  intros Hcmd Hl. rewrite MatchString_commandRe by exact Hcmd.
  unfold standalone. rewrite (splitLines_noLF _ Hl).
  cbn [existsb]. apply orb_false_r.
Qed.

(** The command in any letter case and then blanks is a command line. *)
Lemma commandLine_token_blanks (cmd tok ws : string) :
  equalFold cmd tok = true -> allBlank ws = true ->
  commandLine cmd (tok ++ ws) = true.
Proof.
  revert tok. induction cmd as [|a cmd IH]; intros [|c tok] Hf Hws;
    cbn [equalFold] in Hf; try discriminate Hf.
  - exact Hws.
  - apply andb_true_iff in Hf as [Hac Hf].
    cbn [append commandLine]. rewrite Hac. apply IH; assumption.
Qed.

Lemma standalone_of_line (cmd text l : string) :
  In l (splitLines text) -> commandLine cmd l = true ->
  standalone cmd text = true.
Proof.
  intros Hin Hl. unfold standalone. apply existsb_exists.
  exists l. split; assumption.
Qed.

Lemma standalone_false_of_lines (cmd text : string) :
  (forall l, In l (splitLines text) -> commandLine cmd l = false) ->
  standalone cmd text = false.
Proof.
  intro H. unfold standalone.
  destruct (existsb (commandLine cmd) (splitLines text)) eqn:E; [|reflexivity].
  apply existsb_exists in E as (l & Hin & Hl).
  rewrite (H l Hin) in Hl. discriminate Hl.
Qed.

Lemma MatchString_mergeRe (text : string) :
  MatchString mergeRe text = standalone "/merge" text.
Proof. apply (MatchString_commandRe "/merge"). reflexivity. Qed.

Lemma MatchString_mergeCancelRe (text : string) :
  MatchString mergeCancelRe text = standalone "/merge cancel" text.
Proof. apply (MatchString_commandRe "/merge cancel"). reflexivity. Qed.

End CommandMatcher.

(* ===================================================================== *)
(** * The label reconciler *)
(* ===================================================================== *)

Section Reconciler.

Context {St PullRequest IssueComment : Type}.
Variable HasLabel : string -> list Label -> bool.
Variable gc : githubClient St PullRequest IssueComment.
Variable config : Configuration.

(** A run of [handle], written out: the read, then one of three ends. *)
Lemma handle_run (wantMerge : bool) (rc : reviewCtx) (s : St) :
  let org := Login (Owner (repo rc)) in
  let repoName := Name (repo rc) in
  let fetched := GetIssueLabels gc org repoName (number rc) s in
  let labels := fst (fst fetched) in
  let s1 := snd fetched in
  let read := readEvents org repoName (number rc) (snd (fst fetched)) in
  handle HasLabel wantMerge config rc gc s
  = if HasLabel mergeLabel labels && negb wantMerge then
      let removed := RemoveLabel gc org repoName (number rc) mergeLabel s1 in
      {| result := fst removed; state := snd removed;
         trace := read ++ [Logged (LogInfo "Removing merge label.");
                           ClientCall (CallRemoveLabel org repoName (number rc)
                                                       mergeLabel)] |}
    else if negb (HasLabel mergeLabel labels) && wantMerge then
      let added := AddLabel gc org repoName (number rc) mergeLabel s1 in
      {| result := fst added; state := snd added;
         trace := read ++ [Logged (LogInfo "Adding merge label.");
                           ClientCall (CallAddLabel org repoName (number rc)
                                                    mergeLabel)] |}
    else {| result := None; state := s1; trace := read |}.
Proof.
  cbv zeta. unfold handle, bind, callGetIssueLabels, readEvents.
  destruct (GetIssueLabels gc (Login (Owner (repo rc))) (Name (repo rc))
              (number rc) s) as [[labels err] s1].
  cbn [result state trace fst snd].
  destruct (HasLabel mergeLabel labels), wantMerge, err as [e|];
    cbn [andb negb logErrorf logInfo ret result state trace app fst snd];
    unfold callRemoveLabel, callAddLabel;
    try reflexivity.
  all: try (destruct (RemoveLabel gc (Login (Owner (repo rc))) (Name (repo rc))
                        (number rc) mergeLabel s1) as [r s2]; reflexivity).
  all: destruct (AddLabel gc (Login (Owner (repo rc))) (Name (repo rc))
                   (number rc) mergeLabel s1) as [[e'|] s2]; reflexivity.
Qed.

Lemma callsOf_readEvents (org repoName : string) (n : Z) (err : error)
      (rest : list Event) :
  callsOf (readEvents org repoName n err ++ rest)
  = CallGetIssueLabels org repoName n :: callsOf rest.
Proof. destruct err; reflexivity. Qed.

Lemma callsOf_app (t1 t2 : list Event) :
  callsOf (t1 ++ t2) = (callsOf t1 ++ callsOf t2)%list.
Proof.
  induction t1 as [|[c|l] t1 IH]; cbn [app callsOf];
    [reflexivity | rewrite IH; reflexivity | exact IH].
Qed.

Lemma callsOf_read (org repoName : string) (n : Z) (err : error) :
  callsOf (readEvents org repoName n err) = [CallGetIssueLabels org repoName n].
Proof. destruct err; reflexivity. Qed.

(** A run of [handleGenericComment] on an event the filter lets through. *)
Lemma handleGenericComment_eligible (e : GenericCommentEvent) (s : St) :
  eligible e ->
  handleGenericComment HasLabel gc config e s
  = if standalone "/merge" (Body e)
    then handle HasLabel true config (contextOf e) gc s
    else if standalone "/merge cancel" (Body e)
         then handle HasLabel false config (contextOf e) gc s
         else {| result := None; state := s; trace := [] |}.
Proof.
  intros (Hpr & Hopen & Hact).
  unfold handleGenericComment. rewrite Hpr, Hopen, Hact.
  cbn [negb orb actionEqb String.eqb Ascii.eqb Bool.eqb body].
  rewrite MatchString_mergeRe, MatchString_mergeCancelRe.
  destruct (standalone "/merge" (Body e)); [reflexivity|].
  destruct (standalone "/merge cancel" (Body e)); reflexivity.
Qed.

(** C1. Idempotence of the reconciliation: when the fetched label set has
    the label exactly when the merge is wanted, [handle] returns nil, calls
    neither AddLabel nor RemoveLabel (its only call is the read), and
    leaves the client as the read left it. *)
Theorem handle_no_write_when_has_is_want
        (wantMerge : bool) (rc : reviewCtx) (s : St) :
  let org := Login (Owner (repo rc)) in
  let repoName := Name (repo rc) in
  let fetched := GetIssueLabels gc org repoName (number rc) s in
  HasLabel mergeLabel (fst (fst fetched)) = wantMerge ->
  let o := handle HasLabel wantMerge config rc gc s in
  result o = None
  /\ countCalls isAddLabel (trace o) = 0
  /\ countCalls isRemoveLabel (trace o) = 0
  /\ callsOf (trace o) = [CallGetIssueLabels org repoName (number rc)]
  /\ state o = snd fetched.
Proof.
  cbv zeta. intro Hhas.
  rewrite handle_run. cbv zeta. rewrite Hhas.
  unfold countCalls.
  destruct wantMerge; cbn [andb negb result state trace];
    rewrite <- (app_nil_r (readEvents _ _ _ _)), callsOf_readEvents;
    repeat split; reflexivity.
Qed.

(** C2. The event filter: an event that is not on a pull request, or whose
    issue is not open, or whose action is not "created", is answered with
    nil and nothing else happens: no call on the client, no log line, the
    client's state untouched. *)
Theorem filtered_event_is_a_no_op (e : GenericCommentEvent) (s : St) :
  IsPR e = false \/ IssueState e <> "open"
  \/ Action e <> GenericCommentActionCreated ->
  handleGenericComment HasLabel gc config e s
  = {| result := None; state := s; trace := [] |}.
Proof.
  intro H. unfold handleGenericComment.
  destruct (IsPR e); cbn [negb orb]; [|reflexivity].
  destruct (String.eqb_spec (IssueState e) "open") as [Ho|Ho];
    cbn [negb orb]; [|reflexivity].
  destruct (Action e); cbn [actionEqb negb]; try reflexivity.
  destruct H as [H|[H|H]]; [discriminate H | contradiction | contradiction].
Qed.

(** C3. On an eligible event whose body has a standalone "/merge" line,
    when the fetched labels do not have "ok-to-merge": the calls are the
    read and then one AddLabel for "ok-to-merge" (one AddLabel, no
    RemoveLabel), and what AddLabel returned, nil or error, is returned. *)
Theorem merge_adds_the_label_once (e : GenericCommentEvent) (s : St) :
  let org := Login (Owner (EventRepo e)) in
  let repoName := Name (EventRepo e) in
  let fetched := GetIssueLabels gc org repoName (Number e) s in
  let added := AddLabel gc org repoName (Number e) "ok-to-merge" (snd fetched) in
  eligible e ->
  standalone "/merge" (Body e) = true ->
  HasLabel mergeLabel (fst (fst fetched)) = false ->
  let o := handleGenericComment HasLabel gc config e s in
  countCalls isAddLabel (trace o) = 1
  /\ countCalls isRemoveLabel (trace o) = 0
  /\ callsOf (trace o) = [CallGetIssueLabels org repoName (Number e);
                          CallAddLabel org repoName (Number e) "ok-to-merge"]
  /\ result o = fst added
  /\ state o = snd added.
Proof.
  cbv zeta. intros Hel Hm Hhas.
  rewrite handleGenericComment_eligible by exact Hel.
  rewrite Hm, handle_run. cbv zeta.
  cbn [contextOf repo number]. rewrite Hhas.
  cbn [andb negb result state trace]. unfold countCalls.
  rewrite callsOf_readEvents. repeat split; reflexivity.
Qed.

(** C4. On an eligible event whose body has a standalone "/merge cancel"
    line and no standalone "/merge" line, when the fetched labels have
    "ok-to-merge": the calls are the read and then one RemoveLabel (one
    RemoveLabel, no AddLabel), and the handler's result is RemoveLabel's
    result, nil or error, as it is. *)
Theorem cancel_removes_the_label_once (e : GenericCommentEvent) (s : St) :
  let org := Login (Owner (EventRepo e)) in
  let repoName := Name (EventRepo e) in
  let fetched := GetIssueLabels gc org repoName (Number e) s in
  let removed := RemoveLabel gc org repoName (Number e) "ok-to-merge"
                             (snd fetched) in
  eligible e ->
  standalone "/merge cancel" (Body e) = true ->
  standalone "/merge" (Body e) = false ->
  HasLabel mergeLabel (fst (fst fetched)) = true ->
  let o := handleGenericComment HasLabel gc config e s in
  countCalls isRemoveLabel (trace o) = 1
  /\ countCalls isAddLabel (trace o) = 0
  /\ callsOf (trace o) = [CallGetIssueLabels org repoName (Number e);
                          CallRemoveLabel org repoName (Number e) "ok-to-merge"]
  /\ result o = fst removed
  /\ state o = snd removed.
Proof.
  cbv zeta. intros Hel Hc Hm Hhas.
  rewrite handleGenericComment_eligible by exact Hel.
  rewrite Hm, Hc, handle_run. cbv zeta.
  cbn [contextOf repo number]. rewrite Hhas.
  cbn [andb negb result state trace]. unfold countCalls.
  rewrite callsOf_readEvents. repeat split; reflexivity.
Qed.


(** C6. The tie-break: on an eligible event whose body has both a
    standalone "/merge" line and a standalone "/merge cancel" line, in
    whichever order, the merge pattern is looked for first and the run is
    that of a requested merge ([wantMerge] is true). *)
Theorem merge_wins_over_cancel (e : GenericCommentEvent) (s : St) :
  eligible e ->
  standalone "/merge" (Body e) = true ->
  standalone "/merge cancel" (Body e) = true ->
  handleGenericComment HasLabel gc config e s
  = handle HasLabel true config (contextOf e) gc s.
Proof.
  intros Hel Hm _.
  rewrite handleGenericComment_eligible by exact Hel.
  rewrite Hm. reflexivity.
Qed.

(** C7, as the code has it.  On an eligible event, a line of the body that
    is the token "/merge" in any letter case, starting in the first column
    and followed only by blanks (space, tab, form feed, carriage return),
    makes the run that of a requested merge; so "/MERGE" does what "/merge"
    does.  Blanks before the token are not accepted. *)
Theorem merge_line_requests_merge
        (e : GenericCommentEvent) (tok ws : string) (s : St) :
  eligible e ->
  equalFold "/merge" tok = true ->
  allBlank ws = true ->
  In (tok ++ ws) (splitLines (Body e)) ->
  handleGenericComment HasLabel gc config e s
  = handle HasLabel true config (contextOf e) gc s.
Proof.
  intros Hel Htok Hws Hin.
  rewrite handleGenericComment_eligible by exact Hel.
  rewrite (standalone_of_line "/merge" _ _ Hin
             (commandLine_token_blanks _ _ _ Htok Hws)).
  reflexivity.
Qed.

(** C8. On an eligible event none of whose lines is a command line of
    either pattern, the handler returns nil and nothing else happens: no
    call on the client, no log line, the client's state untouched. *)
Theorem no_command_is_a_no_op (e : GenericCommentEvent) (s : St) :
  eligible e ->
  (forall l, In l (splitLines (Body e)) ->
             commandLine "/merge" l = false
             /\ commandLine "/merge cancel" l = false) ->
  handleGenericComment HasLabel gc config e s
  = {| result := None; state := s; trace := [] |}.
Proof.
  intros Hel Hlines.
  rewrite handleGenericComment_eligible by exact Hel.
  rewrite (standalone_false_of_lines "/merge" (Body e)
             (fun l Hin => proj1 (Hlines l Hin))).
  rewrite (standalone_false_of_lines "/merge cancel" (Body e)
             (fun l Hin => proj2 (Hlines l Hin))).
  reflexivity.
Qed.

Lemma handle_writes_at_most_once (wantMerge : bool) (rc : reviewCtx) (s : St) :
  countCalls isAddLabel (trace (handle HasLabel wantMerge config rc gc s))
  + countCalls isRemoveLabel (trace (handle HasLabel wantMerge config rc gc s))
  <= 1.
Proof.
  rewrite handle_run. cbv zeta. unfold countCalls.
  destruct (HasLabel mergeLabel _), wantMerge;
    cbn [andb negb result state trace];
    rewrite ?callsOf_app, callsOf_read; cbn; lia.
Qed.

Lemma handleGenericComment_cases (e : GenericCommentEvent) (s : St) :
  handleGenericComment HasLabel gc config e s
  = {| result := None; state := s; trace := [] |}
  \/ exists wantMerge,
      handleGenericComment HasLabel gc config e s
      = handle HasLabel wantMerge config (contextOf e) gc s.
Proof.
  unfold handleGenericComment.
  destruct (negb (IsPR e) || negb (IssueState e =? "open")%string
            || negb (actionEqb (Action e) GenericCommentActionCreated));
    [left; reflexivity|].
  cbn [body].
  destruct (regexp.MatchString mergeRe (Body e));
    [right; exists true; reflexivity|].
  destruct (regexp.MatchString mergeCancelRe (Body e));
    [right; exists false; reflexivity | left; reflexivity].
Qed.

(** C10. One invocation writes at most one label: over a whole run of the
    handler, and of the reconciliation alone, the AddLabel calls and the
    RemoveLabel calls together number at most one, so never both and
    never one of them twice. *)
Theorem at_most_one_label_write
        (e : GenericCommentEvent) (wantMerge : bool) (rc : reviewCtx) (s : St) :
  countCalls isAddLabel (trace (handleGenericComment HasLabel gc config e s))
  + countCalls isRemoveLabel (trace (handleGenericComment HasLabel gc config e s))
  <= 1
  /\ countCalls isAddLabel (trace (handle HasLabel wantMerge config rc gc s))
     + countCalls isRemoveLabel (trace (handle HasLabel wantMerge config rc gc s))
     <= 1.
Proof.
  split; [|apply handle_writes_at_most_once].
  destruct (handleGenericComment_cases e s) as [H|[wm H]]; rewrite H.
  - cbn. lia.
  - apply handle_writes_at_most_once.
Qed.

End Reconciler.

(* ===================================================================== *)
(** * The repository scope resolver *)
(* ===================================================================== *)

Section RepoScope.

Lemma strInSlice_In (str : string) (slice : list string) :
  strInSlice str slice = true <-> In str slice.
Proof.
  induction slice as [|elem rest IH]; cbn [strInSlice In].
  - split; [discriminate | contradiction].
  - destruct (String.eqb_spec elem str) as [E|E].
    + split; [intros _; left; exact E | reflexivity].
    + rewrite IH. split; [intro H; right; exact H|].
      intros [H|H]; [contradiction | exact H].
Qed.

Lemma skip_entry_iff (org repo : string) (m : Merge) :
  negb (strInSlice org (Repos m))
  && negb (strInSlice (org ++ "/" ++ repo) (Repos m)) = true
  <-> ~ entryApplies org repo m.
Proof.
  unfold entryApplies. rewrite andb_true_iff, !negb_true_iff.
  rewrite <- !not_true_iff_false, !strInSlice_In. tauto.
Qed.

(** The loop from index [k] on: it stops at the first entry that applies,
    or runs off the end and makes a fresh empty value. *)
Lemma optionsForRepoFrom_spec (org repo : string) (entries : list Merge) :
  forall k : nat,
    (exists i m,
        optionsForRepoFrom k entries org (org ++ "/" ++ repo)
        = AddrOfConfigMerge (k + i)
        /\ nth_error entries i = Some m
        /\ entryApplies org repo m
        /\ forall j m', j < i -> nth_error entries j = Some m' ->
                        ~ entryApplies org repo m')
    \/ (optionsForRepoFrom k entries org (org ++ "/" ++ repo)
        = AddrOfNew {| Repos := [] |}
        /\ forall m, In m entries -> ~ entryApplies org repo m).
Proof.
  induction entries as [|m rest IH]; intro k; cbn [optionsForRepoFrom].
  - right. split; [reflexivity | intros m []].
  - destruct (negb (strInSlice org (Repos m))
              && negb (strInSlice (org ++ "/" ++ repo) (Repos m))) eqn:Hskip.
    + apply skip_entry_iff in Hskip.
      destruct (IH (S k)) as [(i & m1 & Hr & Hn & Ha & Hbefore)|(Hr & Hnone)].
      * left. exists (S i), m1. repeat split.
        -- rewrite Hr. f_equal. lia.
        -- exact Hn.
        -- exact Ha.
        -- intros [|j] m' Hj Hnth; cbn [nth_error] in Hnth.
           ++ injection Hnth as <-. exact Hskip.
           ++ apply (Hbefore j m'); [lia | exact Hnth].
      * right. split; [exact Hr|].
        intros m' [<-|Hin]; [exact Hskip | apply Hnone, Hin].
    + left. exists 0, m. repeat split.
      * f_equal. lia.
      * unfold entryApplies. rewrite <- !strInSlice_In.
        apply andb_false_iff in Hskip as [H|H]; apply negb_false_iff in H;
          [left | right]; exact H.
      * intros j m' Hj. lia.
Qed.

(** C9. [optionsForRepo] scans the configuration list in order: it returns
    the address of the first entry whose repo list has the bare org name
    or the full name org/repo, and the address of a fresh, empty options
    value when no entry has either.  With the list
    [{repos: [orgA]}, {repos: [orgB/repoX]}], orgA/anyrepo resolves to the
    first entry and orgC/repoZ to the empty default. *)
Theorem optionsForRepo_first_match :
  (forall (config : Configuration) (org repo : string),
      (exists i m,
          optionsForRepo config org repo = AddrOfConfigMerge i
          /\ nth_error (ConfigMerge config) i = Some m
          /\ entryApplies org repo m
          /\ forall j m', j < i -> nth_error (ConfigMerge config) j = Some m' ->
                          ~ entryApplies org repo m')
      \/ (optionsForRepo config org repo = AddrOfNew {| Repos := [] |}
          /\ forall m, In m (ConfigMerge config) -> ~ entryApplies org repo m))
  /\ optionsForRepo scopingExample "orgA" "anyrepo" = AddrOfConfigMerge 0
  /\ load scopingExample (optionsForRepo scopingExample "orgA" "anyrepo")
     = Some {| Repos := ["orgA"] |}
  /\ optionsForRepo scopingExample "orgC" "repoZ" = AddrOfNew {| Repos := [] |}.
Proof.
  split; [|repeat split; reflexivity].
  intros config org repo. unfold optionsForRepo.
  exact (optionsForRepoFrom_spec org repo (ConfigMerge config) 0).
Qed.

End RepoScope.

(* ===================================================================== *)
(** * The properties at work on the fake client *)
(* ===================================================================== *)

Section Runs.

(** "/merge" on a pull request that has the label already. *)
Lemma handle_no_write_when_has_is_want_run :
  let gc := fakeClient None None None in
  let rc := contextOf (commentOn "/merge") in
  github.HasLabel mergeLabel
    (fst (fst (GetIssueLabels gc "kubernetes" "test-infra" 5 [okToMerge]))) = true
  /\ (let o := handle github.HasLabel true noConfig rc gc [okToMerge] in
      result o = None
      /\ countCalls isAddLabel (trace o) = 0
      /\ countCalls isRemoveLabel (trace o) = 0
      /\ callsOf (trace o) = [GET]
      /\ state o = [okToMerge]).
Proof.
  split; [reflexivity|].
  exact (@handle_no_write_when_has_is_want (list Label) unit unit github.HasLabel
           (fakeClient None None None) noConfig true
           (contextOf (commentOn "/merge")) [okToMerge] eq_refl).
Defined.

(** A comment on an issue, on a closed pull request, and an edited one. *)
Lemma filtered_event_is_a_no_op_run :
  let gc := fakeClient None None None in
  let run e := handleGenericComment github.HasLabel gc noConfig e [okToMerge] in
  let nothing := {| result := None; state := [okToMerge]; trace := [] |} in
  run (eventOf false "open" GenericCommentActionCreated "/merge cancel") = nothing
  /\ run (eventOf true "closed" GenericCommentActionCreated "/merge cancel") = nothing
  /\ run (eventOf true "open" GenericCommentActionEdited "/merge cancel") = nothing.
Proof.
  cbv zeta. split; [|split].
  - apply (@filtered_event_is_a_no_op (list Label) unit unit github.HasLabel
             (fakeClient None None None)
             noConfig (eventOf false "open" GenericCommentActionCreated
                               "/merge cancel") [okToMerge]).
    left. reflexivity.
  - apply (@filtered_event_is_a_no_op (list Label) unit unit github.HasLabel
             (fakeClient None None None)
             noConfig (eventOf true "closed" GenericCommentActionCreated
                               "/merge cancel") [okToMerge]).
    right. left. discriminate.
  - apply (@filtered_event_is_a_no_op (list Label) unit unit github.HasLabel
             (fakeClient None None None)
             noConfig (eventOf true "open" GenericCommentActionEdited
                               "/merge cancel") [okToMerge]).
    right. right. discriminate.
Defined.

(** "/merge" on a pull request without the label, AddLabel failing. *)
Lemma merge_adds_the_label_once_run :
  let gc := fakeClient None (Some "add failed") None in
  let e := commentOn ("looks good" ++ crlf ++ "/merge" ++ crlf) in
  eligible e
  /\ standalone "/merge" (Body e) = true
  /\ github.HasLabel mergeLabel
       (fst (fst (GetIssueLabels gc "kubernetes" "test-infra" 5 []))) = false
  /\ (let o := handleGenericComment github.HasLabel gc noConfig e [] in
      countCalls isAddLabel (trace o) = 1
      /\ countCalls isRemoveLabel (trace o) = 0
      /\ callsOf (trace o) = [GET; ADD]
      /\ result o = Some "add failed"
      /\ state o = []).
Proof.
  split; [repeat split|]. split; [reflexivity|]. split; [reflexivity|].
  exact (@merge_adds_the_label_once (list Label) unit unit github.HasLabel
           (fakeClient None (Some "add failed") None) noConfig
           (commentOn ("looks good" ++ crlf ++ "/merge" ++ crlf)) []
           (conj eq_refl (conj eq_refl eq_refl)) eq_refl eq_refl).
Defined.

(** "/merge cancel" on a pull request with the label. *)
Lemma cancel_removes_the_label_once_run :
  let gc := fakeClient None None None in
  let e := commentOn ("/merge cancel" ++ lf ++ "needs another look") in
  eligible e
  /\ standalone "/merge cancel" (Body e) = true
  /\ standalone "/merge" (Body e) = false
  /\ github.HasLabel mergeLabel
       (fst (fst (GetIssueLabels gc "kubernetes" "test-infra" 5 [okToMerge]))) = true
  /\ (let o := handleGenericComment github.HasLabel gc noConfig e [okToMerge] in
      countCalls isRemoveLabel (trace o) = 1
      /\ countCalls isAddLabel (trace o) = 0
      /\ callsOf (trace o) = [GET; REMOVE]
      /\ result o = None
      /\ state o = []).
Proof.
  split; [repeat split|].
  split; [reflexivity|]. split; [reflexivity|]. split; [reflexivity|].
  exact (@cancel_removes_the_label_once (list Label) unit unit github.HasLabel
           (fakeClient None None None) noConfig
           (commentOn ("/merge cancel" ++ lf ++ "needs another look"))
           [okToMerge]
           (conj eq_refl (conj eq_refl eq_refl)) eq_refl eq_refl eq_refl).
Defined.


(** Both commands in one comment, in either order, on a pull request with
    the label: the run is the merge's, and the label stays. *)
Lemma merge_wins_over_cancel_run :
  let gc := fakeClient None None None in
  let run e := handleGenericComment github.HasLabel gc noConfig e [okToMerge] in
  let asMerge e := handle github.HasLabel true noConfig (contextOf e) gc [okToMerge] in
  let e1 := commentOn ("/merge" ++ lf ++ "/merge cancel") in
  let e2 := commentOn ("/merge cancel" ++ lf ++ "/merge") in
  (eligible e1 /\ standalone "/merge" (Body e1) = true
   /\ standalone "/merge cancel" (Body e1) = true
   /\ run e1 = asMerge e1)
  /\ (eligible e2 /\ standalone "/merge" (Body e2) = true
      /\ standalone "/merge cancel" (Body e2) = true
      /\ run e2 = asMerge e2).
Proof.
  cbv zeta. split.
  - split; [repeat split|]. split; [reflexivity|]. split; [reflexivity|].
    exact (@merge_wins_over_cancel (list Label) unit unit github.HasLabel
             (fakeClient None None None) noConfig
             (commentOn ("/merge" ++ lf ++ "/merge cancel")) [okToMerge]
             (conj eq_refl (conj eq_refl eq_refl)) eq_refl eq_refl).
  - split; [repeat split|]. split; [reflexivity|]. split; [reflexivity|].
    exact (@merge_wins_over_cancel (list Label) unit unit github.HasLabel
             (fakeClient None None None) noConfig
             (commentOn ("/merge cancel" ++ lf ++ "/merge")) [okToMerge]
             (conj eq_refl (conj eq_refl eq_refl)) eq_refl eq_refl).
Defined.

(** "/MERGE" followed by a space and a carriage return does what "/merge"
    does. *)
Lemma merge_line_requests_merge_run :
  let gc := fakeClient None None None in
  let run e := handleGenericComment github.HasLabel gc noConfig e [] in
  let asMerge e := handle github.HasLabel true noConfig (contextOf e) gc [] in
  let e1 := commentOn ("ship it" ++ lf ++ "/MERGE " ++ crlf ++ "thanks") in
  let e2 := commentOn "/merge" in
  (eligible e1 /\ equalFold "/merge" "/MERGE" = true
   /\ allBlank (String " " (String "013" "")) = true
   /\ In ("/MERGE" ++ String " " (String "013" "")) (splitLines (Body e1))
   /\ run e1 = asMerge e1)
  /\ (eligible e2 /\ equalFold "/merge" "/merge" = true
      /\ allBlank "" = true
      /\ In ("/merge" ++ "") (splitLines (Body e2))
      /\ run e2 = asMerge e2).
Proof.
  cbv zeta. split.
  - split; [repeat split|]. split; [reflexivity|]. split; [reflexivity|].
    split; [right; left; reflexivity|].
    exact (@merge_line_requests_merge (list Label) unit unit github.HasLabel
             (fakeClient None None None) noConfig
             (commentOn ("ship it" ++ lf ++ "/MERGE " ++ crlf ++ "thanks"))
             "/MERGE" (String " " (String "013" "")) []
             (conj eq_refl (conj eq_refl eq_refl)) eq_refl eq_refl
             (or_intror (or_introl eq_refl))).
  - split; [repeat split|]. split; [reflexivity|]. split; [reflexivity|].
    split; [left; reflexivity|].
    exact (@merge_line_requests_merge (list Label) unit unit github.HasLabel
             (fakeClient None None None) noConfig (commentOn "/merge")
             "/merge" "" []
             (conj eq_refl (conj eq_refl eq_refl)) eq_refl eq_refl
             (or_introl eq_refl)).
Defined.

(** C7 with white space allowed before the token does not hold: the line
    " /merge" is a blank, the token and nothing more, yet the handler takes
    the comment for no command and does nothing, where the run of a
    requested merge reads the labels and adds one. *)
Lemma merge_line_leading_blank_not_a_command :
  let gc := fakeClient None None None in
  let e := commentOn " /merge" in
  eligible e
  /\ allBlank " " = true
  /\ equalFold "/merge" "/merge" = true
  /\ allBlank "" = true
  /\ In (" " ++ "/merge" ++ "") (splitLines (Body e))
  /\ handleGenericComment github.HasLabel gc noConfig e []
     = {| result := None; state := []; trace := [] |}
  /\ handleGenericComment github.HasLabel gc noConfig e []
     <> handle github.HasLabel true noConfig (contextOf e) gc []
  /\ callsOf (trace (handle github.HasLabel true noConfig (contextOf e) gc []))
     = [GET; ADD].
Proof.
  cbv zeta. split; [repeat split|].
  split; [reflexivity|]. split; [reflexivity|]. split; [reflexivity|].
  split; [left; reflexivity|]. split; [reflexivity|].
  split; [|reflexivity].
  intro H. apply (f_equal (@trace _ _)) in H. vm_compute in H. discriminate H.
Qed.

(** A comment that only mentions the command inside a line. *)
Lemma no_command_is_a_no_op_run :
  let gc := fakeClient None None None in
  let e := commentOn "foo /merge bar" in
  eligible e
  /\ (forall l, In l (splitLines (Body e)) ->
                commandLine "/merge" l = false
                /\ commandLine "/merge cancel" l = false)
  /\ handleGenericComment github.HasLabel gc noConfig e [okToMerge]
     = {| result := None; state := [okToMerge]; trace := [] |}.
Proof.
  cbv zeta.
  assert (Hlines : forall l, In l (splitLines (Body (commentOn "foo /merge bar"))) ->
                             commandLine "/merge" l = false
                             /\ commandLine "/merge cancel" l = false).
  { intros l [<-|[]]. split; reflexivity. }
  split; [repeat split|]. split; [exact Hlines|].
  exact (@no_command_is_a_no_op (list Label) unit unit github.HasLabel
           (fakeClient None None None) noConfig
           (commentOn "foo /merge bar") [okToMerge]
           (conj eq_refl (conj eq_refl eq_refl)) Hlines).
Defined.

End Runs.

(* ===================================================================== *)
(** * More on the repository scope *)
(* ===================================================================== *)

Section ScopeMore.

(** [strInSlice] answers true exactly when the string is an element of the
    slice, compared byte for byte; on the empty slice it answers false. *)
Theorem strInSlice_is_membership (str : string) (slice : list string) :
  (strInSlice str slice = true <-> In str slice)
  /\ (strInSlice str slice = false <-> ~ In str slice)
  /\ strInSlice str [] = false.
Proof.
  split; [apply strInSlice_In|]. split; [|reflexivity].
  rewrite <- strInSlice_In.
  split; intro H; [rewrite H; discriminate | apply not_true_is_false, H].
Qed.

(** The pointer [optionsForRepo] returns can always be followed: it is
    never nil and never past the end of the list.  What it points to either
    applies to the repository, or is the empty value, and then no entry of
    the configuration applies. *)
Theorem optionsForRepo_always_loads (config : Configuration) (org repo : string) :
  exists m,
    load config (optionsForRepo config org repo) = Some m
    /\ (entryApplies org repo m
        \/ (m = {| Repos := [] |}
            /\ forall m', In m' (ConfigMerge config) ->
                          ~ entryApplies org repo m')).
Proof.
  unfold optionsForRepo.
  destruct (optionsForRepoFrom_spec org repo (ConfigMerge config) 0)
    as [(i & m & Hr & Hn & Ha & _)|(Hr & Hnone)]; rewrite Hr.
  - exists m. split; [exact Hn | left; exact Ha].
  - exists {| Repos := [] |}. split; [reflexivity|].
    right. split; [reflexivity | exact Hnone].
Qed.

Lemma optionsForRepoFrom_app (org full : string) (front back : list Merge) :
  forall k,
    optionsForRepoFrom k (front ++ back) org full
    = match optionsForRepoFrom k front org full with
      | AddrOfConfigMerge i => AddrOfConfigMerge i
      | AddrOfNew _ => optionsForRepoFrom (k + List.length front) back org full
      end.
Proof.
  induction front as [|m front IH]; intro k; cbn [app optionsForRepoFrom List.length].
  - f_equal. lia.
  - destruct (negb (strInSlice org (Repos m))
              && negb (strInSlice full (Repos m))); [|reflexivity].
    rewrite IH. destruct (optionsForRepoFrom (S k) front org full);
      [reflexivity | f_equal; lia].
Qed.

Lemma optionsForRepoFrom_shift (org full : string) (entries : list Merge) :
  forall k,
    optionsForRepoFrom k entries org full
    = match optionsForRepoFrom 0 entries org full with
      | AddrOfConfigMerge i => AddrOfConfigMerge (k + i)
      | AddrOfNew m => AddrOfNew m
      end.
Proof.
  induction entries as [|m rest IH]; intro k; cbn [optionsForRepoFrom];
    [reflexivity|].
  destruct (negb (strInSlice org (Repos m))
            && negb (strInSlice full (Repos m))); [|f_equal; lia].
  rewrite (IH (S k)), (IH 1).
  destruct (optionsForRepoFrom 0 rest org full); [f_equal; lia | reflexivity].
Qed.

(** First match wins, list by list: on a configuration made of two lists
    one after the other, the answer is the answer on the first list when
    that one has a match, whatever follows; otherwise it is the answer on
    the second list, its index moved up by the length of the first. *)
Theorem optionsForRepo_of_two_lists
        (front back : list Merge) (org repo : string) :
  optionsForRepo {| ConfigMerge := front ++ back |} org repo
  = match optionsForRepo {| ConfigMerge := front |} org repo with
    | AddrOfConfigMerge i => AddrOfConfigMerge i
    | AddrOfNew _ =>
        match optionsForRepo {| ConfigMerge := back |} org repo with
        | AddrOfConfigMerge i => AddrOfConfigMerge (List.length front + i)
        | AddrOfNew m => AddrOfNew m
        end
    end.
Proof.
  unfold optionsForRepo. cbn [ConfigMerge].
  rewrite optionsForRepoFrom_app.
  destruct (optionsForRepoFrom 0 front org (org ++ "/" ++ repo));
    [reflexivity|].
  apply optionsForRepoFrom_shift.
Qed.

Lemma skipCollaboratorsIn_In (elems : list string) (org full : string) :
  skipCollaboratorsIn elems org full = true <-> In org elems \/ In full elems.
Proof.
  induction elems as [|elem rest IH]; cbn [skipCollaboratorsIn In].
  - split; [discriminate | intros [[]|[]]].
  - destruct (String.eqb_spec elem org) as [Eo|Eo]; cbn [orb].
    + split; [intros _; left; left; exact Eo | reflexivity].
    + destruct (String.eqb_spec elem full) as [Ef|Ef].
      * split; [intros _; right; left; exact Ef | reflexivity].
      * rewrite IH. split; [intros [H|H]; [left|right]; right; exact H|].
        intros [[H|H]|[H|H]]; try contradiction; [left|right]; exact H.
Qed.

(** [skipCollaborators] answers true exactly when the list names the bare
    organisation or the full name org/repo, which is the test by which an
    entry applies in [optionsForRepo]; with nothing listed it is false. *)
Theorem skipCollaborators_is_scope_test
        (config : OwnersConfiguration) (org repo : string) :
  (skipCollaborators config org repo = true
   <-> entryApplies org repo
         {| Repos := SkipCollaborators (ConfigOwners config) |})
  /\ (skipCollaborators config org repo
      = strInSlice org (SkipCollaborators (ConfigOwners config))
        || strInSlice (org ++ "/" ++ repo)
                      (SkipCollaborators (ConfigOwners config))).
Proof.
  unfold skipCollaborators, entryApplies. cbn [Repos].
  split; [apply skipCollaboratorsIn_In|].
  - destruct (skipCollaboratorsIn _ org (org ++ "/" ++ repo)) eqn:E.
    + apply skipCollaboratorsIn_In in E. symmetry. apply orb_true_iff.
      rewrite !strInSlice_In. exact E.
    + symmetry. apply not_true_iff_false. intro H.
      apply orb_true_iff in H. rewrite !strInSlice_In in H.
      apply skipCollaboratorsIn_In in H. congruence.
Qed.

End ScopeMore.

(* ===================================================================== *)
(** * More on the two patterns *)
(* ===================================================================== *)

Section PatternsMore.

Import regexp.

Lemma commandLine_inv (cmd : string) :
  forall l, commandLine cmd l = true ->
            exists tok ws, l = tok ++ ws /\ equalFold cmd tok = true
                           /\ allBlank ws = true.
Proof.
  induction cmd as [|a cmd IH]; intros l H; cbn [commandLine] in H.
  - exists "", l. repeat split. exact H.
  - destruct l as [|c l]; [discriminate H|].
    apply andb_true_iff in H as [Hac H].
    destruct (IH l H) as (tok & ws & -> & Hf & Hws).
    exists (String c tok), ws. split; [reflexivity|].
    split; [cbn [equalFold]; rewrite Hac; exact Hf | exact Hws].
Qed.

Lemma standalone_iff (cmd text : string) :
  standalone cmd text = true
  <-> exists tok ws, In (tok ++ ws) (splitLines text)
                     /\ equalFold cmd tok = true /\ allBlank ws = true.
Proof.
  unfold standalone. rewrite existsb_exists. split.
  - intros (l & Hin & Hl).
    destruct (commandLine_inv _ _ Hl) as (tok & ws & -> & Hf & Hws).
    exists tok, ws. repeat split; assumption.
  - intros (tok & ws & Hin & Hf & Hws).
    exists (tok ++ ws). split; [exact Hin|].
    apply commandLine_token_blanks; assumption.
Qed.

(** What the two patterns find.  [mergeRe] matches somewhere in a text
    exactly when one of the text's lines is "/merge" in any letter case
    followed by blanks only, and [mergeCancelRe] exactly when one of them
    is "/merge cancel" in any letter case followed by blanks only; the
    lines are the pieces between line feeds. *)
Theorem patterns_find_command_lines (text : string) :
  (MatchString mergeRe text = true
   <-> exists tok ws, In (tok ++ ws) (splitLines text)
                      /\ equalFold "/merge" tok = true /\ allBlank ws = true)
  /\ (MatchString mergeCancelRe text = true
      <-> exists tok ws, In (tok ++ ws) (splitLines text)
                         /\ equalFold "/merge cancel" tok = true
                         /\ allBlank ws = true).
Proof.
  rewrite MatchString_mergeRe, MatchString_mergeCancelRe.
  split; apply standalone_iff.
Qed.

Lemma foldEq_c_not_blank (x : ascii) :
  foldEq "c" x = true -> isBlank x = false.
Proof.
  destruct x as [[] [] [] [] [] [] [] []]; vm_compute; intro H;
    first [reflexivity | discriminate H].
Qed.

Lemma no_line_is_both (l : string) :
  commandLine "/merge" l = true -> commandLine "/merge cancel" l = false.
Proof.
  intro Hm.
  destruct (commandLine "/merge cancel" l) eqn:Hc; [|reflexivity].
  repeat (destruct l as [|? l]; cbn [commandLine] in Hc; [discriminate Hc|];
          apply andb_true_iff in Hc as [? Hc]).
  cbn [commandLine allBlank] in Hm.
  repeat match goal with
         | H : _ && _ = true |- _ => apply andb_true_iff in H as [? H]
         end.
  match goal with
  | H : foldEq "c" ?x = true, B : isBlank ?x = true |- _ =>
      rewrite (foldEq_c_not_blank _ H) in B; discriminate B
  end.
Qed.

(** One line cannot be both commands: a text in which both patterns find
    a match has two different lines, one for each command.  The tie that
    [handleGenericComment] breaks in favour of the merge therefore only
    arises in comments of two lines or more. *)
Theorem both_commands_need_two_lines (text : string) :
  MatchString mergeRe text = true ->
  MatchString mergeCancelRe text = true ->
  exists l1 l2,
    l1 <> l2
    /\ In l1 (splitLines text) /\ In l2 (splitLines text)
    /\ commandLine "/merge" l1 = true
    /\ commandLine "/merge cancel" l2 = true.
Proof.
  rewrite MatchString_mergeRe, MatchString_mergeCancelRe.
  unfold standalone. rewrite !existsb_exists.
  intros (l1 & Hin1 & H1) (l2 & Hin2 & H2).
  exists l1, l2. repeat split; try assumption.
  intros ->. rewrite (no_line_is_both _ H1) in H2. discriminate H2.
Qed.

Lemma splitLines_app (a b : string) :
  splitLines (a ++ String LF b) = (splitLines a ++ splitLines b)%list.
Proof.
  induction a as [|c a IH]; cbn [append].
  - rewrite splitLines_LF. reflexivity.
  - cbn [splitLines]. rewrite IH.
    destruct (c =? LF)%char; [reflexivity|].
    rewrite (splitLines_shape a). reflexivity.
Qed.

(** Matching goes line by line: on two texts joined by a line feed, each
    pattern finds a match exactly when it finds one in either text. *)
Theorem patterns_match_either_part (a b : string) :
  MatchString mergeRe (a ++ String LF b)
  = MatchString mergeRe a || MatchString mergeRe b
  /\ MatchString mergeCancelRe (a ++ String LF b)
     = MatchString mergeCancelRe a || MatchString mergeCancelRe b.
Proof.
  rewrite !MatchString_mergeRe, !MatchString_mergeCancelRe.
  unfold standalone. rewrite splitLines_app, !existsb_app.
  split; reflexivity.
Qed.

Lemma toLower_CR (c : ascii) : toLower c = "013"%char -> c = "013"%char.
Proof.
  destruct c as [[] [] [] [] [] [] [] []]; vm_compute; intro H;
    first [reflexivity | discriminate H].
Qed.

Lemma foldEq_CR (a : ascii) :
  (a =? "013")%char = false -> foldEq a "013" = false.
Proof.
  intro Ha. unfold foldEq.
  destruct (toLower a =? toLower "013")%char eqn:E; [|reflexivity].
  apply Ascii.eqb_eq in E. apply toLower_CR in E. subst a. discriminate Ha.
Qed.

Lemma allBlank_firstLine_toCRLF (s : string) :
  allBlank (firstLine (toCRLF s)) = allBlank (firstLine s).
Proof.
  induction s as [|c s IH]; cbn [toCRLF firstLine]; [reflexivity|].
  destruct (c =? LF)%char eqn:Hc.
  - reflexivity.
  - cbn [firstLine]. rewrite Hc. cbn [allBlank]. rewrite IH. reflexivity.
Qed.

Lemma commandLine_firstLine_toCRLF (cmd : string) :
  noCR cmd = true ->
  forall s, commandLine cmd (firstLine (toCRLF s))
            = commandLine cmd (firstLine s).
Proof.
  induction cmd as [|a cmd IH]; intros Hno s.
  - apply allBlank_firstLine_toCRLF.
  - cbn [noCR] in Hno. apply andb_true_iff in Hno as [Ha Hno].
    apply negb_true_iff in Ha.
    destruct s as [|c s]; [reflexivity|].
    cbn [toCRLF firstLine]. destruct (c =? LF)%char eqn:Hc.
    + cbn [firstLine Ascii.eqb Bool.eqb LF commandLine].
      rewrite (foldEq_CR _ Ha). reflexivity.
    + cbn [firstLine]. rewrite Hc. cbn [commandLine].
      rewrite (IH Hno). reflexivity.
Qed.

Lemma later_lines_toCRLF (cmd : string) :
  noCR cmd = true ->
  forall s, existsb (commandLine cmd) (tl (splitLines (toCRLF s)))
            = existsb (commandLine cmd) (tl (splitLines s)).
Proof.
  intros Hno s. induction s as [|c s IH]; [reflexivity|].
  cbn [toCRLF]. destruct (c =? LF)%char eqn:Hc.
  - apply Ascii.eqb_eq in Hc. subst c.
    rewrite (@tl_splitLines_other "013"%char _ eq_refl).
    rewrite !splitLines_LF. cbn [tl].
    rewrite (splitLines_shape (toCRLF s)), (splitLines_shape s).
    cbn [existsb]. rewrite IH, (commandLine_firstLine_toCRLF _ Hno).
    reflexivity.
  - rewrite !(@tl_splitLines_other c _ Hc). exact IH.
Qed.

Lemma standalone_toCRLF (cmd text : string) :
  noCR cmd = true ->
  standalone cmd (toCRLF text) = standalone cmd text.
Proof.
  intro Hno. unfold standalone.
  rewrite (splitLines_shape (toCRLF text)), (splitLines_shape text).
  cbn [existsb].
  rewrite (commandLine_firstLine_toCRLF _ Hno), (later_lines_toCRLF _ Hno).
  reflexivity.
Qed.

(** Line endings do not matter: each pattern finds a match in a text whose
    lines end in carriage return, line feed exactly when it finds one in
    the same text with bare line feeds. *)
Theorem patterns_ignore_carriage_returns (text : string) :
  MatchString mergeRe (toCRLF text) = MatchString mergeRe text
  /\ MatchString mergeCancelRe (toCRLF text) = MatchString mergeCancelRe text.
Proof.
  rewrite !MatchString_mergeRe, !MatchString_mergeCancelRe.
  split; apply standalone_toCRLF; reflexivity.
Qed.

End PatternsMore.

(* ===================================================================== *)
(** * More on the handler *)
(* ===================================================================== *)

Section HandlerMore.

Context {St PullRequest IssueComment : Type}.
Variable HasLabel : string -> list Label -> bool.
Variable gc : githubClient St PullRequest IssueComment.

(** [handle] reads its context for the repository and the number only, and
    never its configuration. *)
Lemma handle_reads_repo_and_number
      (wantMerge : bool) (config1 config2 : Configuration)
      (rc1 rc2 : reviewCtx) (s : St) :
  repo rc1 = repo rc2 -> number rc1 = number rc2 ->
  handle HasLabel wantMerge config1 rc1 gc s
  = handle HasLabel wantMerge config2 rc2 gc s.
Proof.
  intros Hrepo Hnum. rewrite !handle_run. cbv zeta.
  rewrite Hrepo, Hnum. reflexivity.
Qed.

(** The run of [handleGenericComment], eligible or not, by the patterns. *)
Lemma handleGenericComment_run
      (config : Configuration) (e : GenericCommentEvent) (s : St) :
  handleGenericComment HasLabel gc config e s
  = if negb (IsPR e) || negb (IssueState e =? "open")%string
       || negb (actionEqb (Action e) GenericCommentActionCreated)
    then {| result := None; state := s; trace := [] |}
    else if regexp.MatchString mergeRe (Body e)
         then handle HasLabel true config (contextOf e) gc s
         else if regexp.MatchString mergeCancelRe (Body e)
              then handle HasLabel false config (contextOf e) gc s
              else {| result := None; state := s; trace := [] |}.
Proof.
  unfold handleGenericComment. cbn [body].
  destruct (negb (IsPR e) || negb (IssueState e =? "open")%string
            || negb (actionEqb (Action e) GenericCommentActionCreated));
    [reflexivity|].
  destruct (regexp.MatchString mergeRe (Body e)); [reflexivity|].
  destruct (regexp.MatchString mergeCancelRe (Body e)); reflexivity.
Qed.

Lemma guard_false_iff (e : GenericCommentEvent) :
  negb (IsPR e) || negb (IssueState e =? "open")%string
  || negb (actionEqb (Action e) GenericCommentActionCreated) = false
  <-> eligible e.
Proof.
  unfold eligible.
  destruct (IsPR e); cbn [negb orb];
    [|split; [discriminate | intros (H & _); discriminate H]].
  destruct (String.eqb_spec (IssueState e) "open") as [Ho|Ho]; cbn [negb orb];
    [|split; [discriminate | intros (_ & H & _); contradiction]].
  destruct (Action e); cbn [actionEqb negb].
  - split; [intros _; repeat split; exact Ho | reflexivity].
  - split; [discriminate | intros (_ & _ & H); discriminate H].
  - split; [discriminate | intros (_ & _ & H); discriminate H].
Qed.

Lemma handle_calls (wantMerge : bool) (config : Configuration)
      (rc : reviewCtx) (s : St) :
  let org := Login (Owner (repo rc)) in
  let repoName := Name (repo rc) in
  let read := CallGetIssueLabels org repoName (number rc) in
  let calls := callsOf (trace (handle HasLabel wantMerge config rc gc s)) in
  calls = [read]
  \/ calls = [read; CallAddLabel org repoName (number rc) "ok-to-merge"]
  \/ calls = [read; CallRemoveLabel org repoName (number rc) "ok-to-merge"].
Proof.
  cbv zeta. rewrite handle_run. cbv zeta.
  destruct (HasLabel mergeLabel _), wantMerge;
    cbn [andb negb result state trace];
    rewrite ?callsOf_app, callsOf_read; cbn [callsOf app];
    [left | right; right | right; left | left]; reflexivity.
Qed.

(** On an eligible event, a line of the body that is "/merge cancel" in
    any letter case, from the first column on and followed only by blanks,
    makes the run that of a cancelled merge ([wantMerge] is false),
    provided no line of the body is the "/merge" command alone. *)
Theorem cancel_line_requests_cancel
        (config : Configuration) (e : GenericCommentEvent)
        (tok ws : string) (s : St) :
  eligible e ->
  equalFold "/merge cancel" tok = true ->
  allBlank ws = true ->
  In (tok ++ ws) (splitLines (Body e)) ->
  standalone "/merge" (Body e) = false ->
  handleGenericComment HasLabel gc config e s
  = handle HasLabel false config (contextOf e) gc s.
Proof.
  intros Hel Htok Hws Hin Hm.
  rewrite handleGenericComment_eligible by exact Hel.
  rewrite Hm.
  rewrite (standalone_of_line "/merge cancel" _ _ Hin
             (commandLine_token_blanks _ _ _ Htok Hws)).
  reflexivity.
Qed.

(** The handler touches the client exactly when the event is eligible and
    one of the two patterns finds a match in the body; it then starts by
    reading the labels. *)
Theorem handler_reads_iff_command
        (config : Configuration) (e : GenericCommentEvent) (s : St) :
  let calls := callsOf (trace (handleGenericComment HasLabel gc config e s)) in
  (calls <> []
   <-> eligible e
       /\ (regexp.MatchString mergeRe (Body e) = true
           \/ regexp.MatchString mergeCancelRe (Body e) = true))
  /\ (calls = []
      \/ hd_error calls
         = Some (CallGetIssueLabels (Login (Owner (EventRepo e)))
                                    (Name (EventRepo e)) (Number e))).
Proof.
  cbv zeta. rewrite handleGenericComment_run.
  pose proof (guard_false_iff e) as Hg.
  destruct (negb (IsPR e) || negb (IssueState e =? "open")%string
            || negb (actionEqb (Action e) GenericCommentActionCreated)).
  - split; [|left; reflexivity].
    split; [intro H; exfalso; apply H; reflexivity|].
    intros (Hel & _). apply Hg in Hel. discriminate Hel.
  - assert (Hel : eligible e) by (apply Hg; reflexivity).
    assert (Hread : forall wm,
               exists rest,
                 callsOf (trace (handle HasLabel wm config (contextOf e) gc s))
                 = CallGetIssueLabels (Login (Owner (EventRepo e)))
                                      (Name (EventRepo e)) (Number e) :: rest).
    { intro wm.
      destruct (handle_calls wm config (contextOf e) s) as [H|[H|H]];
        rewrite H; eexists; reflexivity. }
    destruct (regexp.MatchString mergeRe (Body e)).
    + destruct (Hread true) as (rest & ->).
      split; [|right; reflexivity].
      split; [intros _; split; [exact Hel | left; reflexivity] | discriminate].
    + destruct (regexp.MatchString mergeCancelRe (Body e)).
      * destruct (Hread false) as (rest & ->).
        split; [|right; reflexivity].
        split; [intros _; split; [exact Hel | right; reflexivity]
               | discriminate].
      * split; [|left; reflexivity].
        split; [intro H; exfalso; apply H; reflexivity|].
        intros (_ & [H|H]); discriminate H.
Qed.

(** An error comes out of [handle] only from a write that failed: when the
    result is an error, either the label was there, the merge unwanted and
    RemoveLabel returned that error, or the label was not there, the merge
    wanted and AddLabel returned it.  A failed read alone is never the
    handler's error. *)
Theorem handle_error_is_the_write_error
        (wantMerge : bool) (config : Configuration) (rc : reviewCtx)
        (s : St) (err : string) :
  let org := Login (Owner (repo rc)) in
  let repoName := Name (repo rc) in
  let fetched := GetIssueLabels gc org repoName (number rc) s in
  let has := HasLabel mergeLabel (fst (fst fetched)) in
  result (handle HasLabel wantMerge config rc gc s) = Some err ->
  (has = true /\ wantMerge = false
   /\ fst (RemoveLabel gc org repoName (number rc) "ok-to-merge" (snd fetched))
      = Some err)
  \/ (has = false /\ wantMerge = true
      /\ fst (AddLabel gc org repoName (number rc) "ok-to-merge" (snd fetched))
         = Some err).
Proof.
  cbv zeta. rewrite handle_run. cbv zeta.
  destruct (HasLabel mergeLabel _), wantMerge;
    cbn [andb negb result state trace]; intro H;
    first [discriminate H
          | left; repeat split; exact H
          | right; repeat split; exact H].
Qed.

(** The handler looks at little of an event: whether it is on a pull
    request, the issue state, the action, the repository, the number, and
    whether each pattern finds a match in the body.  Two events that agree
    on these are handled alike, whoever wrote the comment or the pull
    request, whatever the rest of the body and the URL, and whatever the
    configuration: there is no permission check and no option is read. *)
Theorem handler_ignores_author_and_config
        (config1 config2 : Configuration) (e1 e2 : GenericCommentEvent)
        (s : St) :
  IsPR e1 = IsPR e2 ->
  IssueState e1 = IssueState e2 ->
  Action e1 = Action e2 ->
  EventRepo e1 = EventRepo e2 ->
  Number e1 = Number e2 ->
  regexp.MatchString mergeRe (Body e1) = regexp.MatchString mergeRe (Body e2) ->
  regexp.MatchString mergeCancelRe (Body e1)
  = regexp.MatchString mergeCancelRe (Body e2) ->
  handleGenericComment HasLabel gc config1 e1 s
  = handleGenericComment HasLabel gc config2 e2 s.
Proof.
  intros Hpr Hst Hact Hrepo Hnum Hm Hc.
  rewrite !handleGenericComment_run.
  rewrite Hpr, Hst, Hact, Hm, Hc.
  destruct (negb (IsPR e2) || negb (IssueState e2 =? "open")%string
            || negb (actionEqb (Action e2) GenericCommentActionCreated));
    [reflexivity|].
  destruct (regexp.MatchString mergeRe (Body e2));
    [apply handle_reads_repo_and_number; assumption|].
  destruct (regexp.MatchString mergeCancelRe (Body e2));
    [apply handle_reads_repo_and_number; assumption | reflexivity].
Qed.

(** Against a client that keeps its word about labels, a run of [handle]
    that returns nil leaves the label as wanted: the next read has
    "ok-to-merge" exactly when the merge was wanted.  A second run with
    the same intent then only reads: it returns nil, makes no write and
    leaves the client as it was. *)
Theorem handle_settles_the_label
        (wantMerge : bool) (config : Configuration) (rc : reviewCtx) (s : St) :
  let org := Login (Owner (repo rc)) in
  let repoName := Name (repo rc) in
  let o1 := handle HasLabel wantMerge config rc gc s in
  let o2 := handle HasLabel wantMerge config rc gc (state o1) in
  keepsLabels HasLabel gc ->
  result o1 = None ->
  HasLabel mergeLabel
    (fst (fst (GetIssueLabels gc org repoName (number rc) (state o1))))
  = wantMerge
  /\ result o2 = None
  /\ callsOf (trace o2) = [CallGetIssueLabels org repoName (number rc)]
  /\ state o2 = state o1.
Proof.
  cbv zeta. intros Hk Hok.
  assert (Hpost :
            HasLabel mergeLabel
              (fst (fst (GetIssueLabels gc (Login (Owner (repo rc)))
                           (Name (repo rc)) (number rc)
                           (state (handle HasLabel wantMerge config rc gc s)))))
            = wantMerge).
  { revert Hok. rewrite handle_run. cbv zeta.
    destruct (HasLabel mergeLabel
                (fst (fst (GetIssueLabels gc (Login (Owner (repo rc)))
                             (Name (repo rc)) (number rc) s)))) eqn:Hhas;
      destruct wantMerge; cbn [andb negb result state trace]; intro Hok.
    - rewrite (read_only Hk). exact Hhas.
    - apply (removed_shows Hk). exact Hok.
    - apply (added_shows Hk). exact Hok.
    - rewrite (read_only Hk). exact Hhas. }
  split; [exact Hpost|].
  rewrite (handle_run HasLabel gc config wantMerge rc
             (state (handle HasLabel wantMerge config rc gc s))).
  cbv zeta. rewrite Hpost, (read_only Hk).
  destruct wantMerge; cbn [andb negb result state trace];
    rewrite callsOf_read; repeat split; reflexivity.
Qed.

End HandlerMore.

Section RegisteredHandler.

Context {St PullRequest IssueComment : Type}.
Variable HasLabel : string -> list Label -> bool.

(** Whatever the event, the registered handler calls the client in one of
    four ways only: not at all; one read of the labels; the read and then
    one AddLabel; the read and then one RemoveLabel.  The read and the
    write are on the event's own repository and number, the write is of
    the label "ok-to-merge", and no other method of the client is called. *)
Theorem handler_calls_are_read_then_one_write
        (pc : PluginClient (St := St) (PullRequest := PullRequest)
                           (IssueComment := IssueComment))
        (e : GenericCommentEvent) (s : St) :
  let org := Login (Owner (EventRepo e)) in
  let repoName := Name (EventRepo e) in
  let read := CallGetIssueLabels org repoName (Number e) in
  let calls := callsOf (trace (handleGenericCommentEvent HasLabel pc e s)) in
  calls = []
  \/ calls = [read]
  \/ calls = [read; CallAddLabel org repoName (Number e) "ok-to-merge"]
  \/ calls = [read; CallRemoveLabel org repoName (Number e) "ok-to-merge"].
Proof.
  cbv zeta. unfold handleGenericCommentEvent.
  destruct (handleGenericComment_cases HasLabel (GitHubClient pc)
              (PluginConfig pc) e s) as [H|[wm H]]; rewrite H.
  - left. reflexivity.
  - right.
    exact (handle_calls HasLabel (GitHubClient pc) wm (PluginConfig pc)
                        (contextOf e) s).
Qed.

End RegisteredHandler.

(* ===================================================================== *)
(** * The help, and more runs on the fake client *)
(* ===================================================================== *)

Section HelpAndRuns.

(** [helpProvider] never fails and does not look at its arguments: any
    two configurations and lists of repositories get the same help.  It
    documents one command, of usage "/merge [cancel]" and examples "/merge"
    and "/merge cancel"; each example, sent alone as a comment, is found by
    one of the two patterns, the first as a merge, the second as a cancel
    only, and the usage line itself is no command. *)
Theorem help_examples_are_commands
        (config config' : Configuration)
        (enabledRepos enabledRepos' : list string) :
  let help := fst (helpProvider config enabledRepos) in
  helpProvider config enabledRepos = helpProvider config' enabledRepos'
  /\ snd (helpProvider config enabledRepos) = None
  /\ map pluginhelp.Usage (pluginhelp.Commands help) = ["/merge [cancel]"]
  /\ map pluginhelp.Examples (pluginhelp.Commands help)
     = [["/merge"; "/merge cancel"]]
  /\ forallb (fun c =>
                forallb (fun ex => regexp.MatchString mergeRe ex
                                   || regexp.MatchString mergeCancelRe ex)
                        (pluginhelp.Examples c)
                && negb (regexp.MatchString mergeRe (pluginhelp.Usage c)
                         || regexp.MatchString mergeCancelRe (pluginhelp.Usage c)))
             (pluginhelp.Commands help) = true
  /\ map (fun c => map (fun ex => (regexp.MatchString mergeRe ex,
                                   regexp.MatchString mergeCancelRe ex))
                       (pluginhelp.Examples c))
         (pluginhelp.Commands help)
     = [[(true, false); (false, true)]].
Proof.
  cbv zeta. split; [reflexivity|]. split; [reflexivity|].
  split; [reflexivity|]. split; [reflexivity|].
  split; reflexivity.
Qed.

Lemma HasLabel_after_add (label : string) (ls : list Label) :
  github.HasLabel label (ls ++ [{| LabelName := label |}]) = true.
Proof.
  unfold github.HasLabel. rewrite existsb_app. cbn [existsb LabelName].
  rewrite String.eqb_refl. apply orb_true_iff. right. reflexivity.
Qed.

Lemma HasLabel_after_remove (label : string) (ls : list Label) :
  github.HasLabel label (removeLabelNamed label ls) = false.
Proof.
  unfold github.HasLabel, removeLabelNamed.
  induction ls as [|l ls IH]; cbn [filter existsb]; [reflexivity|].
  destruct (LabelName l =? label)%string eqn:E; cbn [negb existsb];
    [exact IH | rewrite E; exact IH].
Qed.

(** The fake client, reading without error, keeps its word about labels. *)
Lemma fakeClient_keepsLabels (addErr removeErr : error) :
  keepsLabels github.HasLabel (fakeClient None addErr removeErr).
Proof.
  constructor; cbn [fakeClient GetIssueLabels AddLabel RemoveLabel fst snd].
  - reflexivity.
  - intros _ _ _ label s. destruct addErr; cbn [fst snd];
      [discriminate | intros _; apply HasLabel_after_add].
  - intros _ _ _ label s. destruct removeErr; cbn [fst snd];
      [discriminate | intros _; apply HasLabel_after_remove].
Qed.

(** Both commands in a comment of two lines. *)
Lemma both_commands_need_two_lines_run :
  let text := "/merge cancel" ++ lf ++ "/merge" in
  regexp.MatchString mergeRe text = true
  /\ regexp.MatchString mergeCancelRe text = true
  /\ exists l1 l2,
      l1 <> l2
      /\ In l1 (splitLines text) /\ In l2 (splitLines text)
      /\ commandLine "/merge" l1 = true
      /\ commandLine "/merge cancel" l2 = true.
Proof.
  cbv zeta. split; [reflexivity|]. split; [reflexivity|].
  exact (@both_commands_need_two_lines ("/merge cancel" ++ lf ++ "/merge")
           eq_refl eq_refl).
Defined.

(** "/Merge Cancel" with a trailing tab, below a line of prose. *)
Lemma cancel_line_requests_cancel_run :
  let gc := fakeClient None None None in
  let e := commentOn ("not yet" ++ lf ++ "/Merge Cancel" ++ String "009" "") in
  eligible e
  /\ equalFold "/merge cancel" "/Merge Cancel" = true
  /\ allBlank (String "009" "") = true
  /\ In ("/Merge Cancel" ++ String "009" "") (splitLines (Body e))
  /\ standalone "/merge" (Body e) = false
  /\ handleGenericComment github.HasLabel gc noConfig e [okToMerge]
     = handle github.HasLabel false noConfig (contextOf e) gc [okToMerge].
Proof.
  cbv zeta. split; [repeat split|].
  split; [reflexivity|]. split; [reflexivity|].
  split; [right; left; reflexivity|]. split; [reflexivity|].
  exact (@cancel_line_requests_cancel (list Label) unit unit github.HasLabel
           (fakeClient None None None) noConfig
           (commentOn ("not yet" ++ lf ++ "/Merge Cancel" ++ String "009" ""))
           "/Merge Cancel" (String "009" "") [okToMerge]
           (conj eq_refl (conj eq_refl eq_refl)) eq_refl eq_refl
           (or_intror (or_introl eq_refl)) eq_refl).
Defined.

(** A wanted merge whose AddLabel fails. *)
Lemma handle_error_is_the_write_error_run :
  let gc := fakeClient None (Some "add failed") None in
  let rc := contextOf (commentOn "/merge") in
  result (handle github.HasLabel true noConfig rc gc []) = Some "add failed"
  /\ ((github.HasLabel mergeLabel [] = true /\ true = false
       /\ fst (RemoveLabel gc "kubernetes" "test-infra" 5 "ok-to-merge" [])
          = Some "add failed")
      \/ (github.HasLabel mergeLabel [] = false /\ true = true
          /\ fst (AddLabel gc "kubernetes" "test-infra" 5 "ok-to-merge" [])
             = Some "add failed")).
Proof.
  cbv zeta. split; [reflexivity|].
  exact (@handle_error_is_the_write_error (list Label) unit unit
           github.HasLabel (fakeClient None (Some "add failed") None)
           true noConfig (contextOf (commentOn "/merge")) [] "add failed"
           eq_refl).
Defined.

(** The same command from two commenters, under two configurations. *)
Lemma handler_ignores_author_and_config_run :
  let gc := fakeClient None None None in
  let e1 := commentOn "/merge" in
  let e2 := commentBy "mallory" ("me too" ++ crlf ++ "/MERGE") in
  IsPR e1 = IsPR e2
  /\ IssueState e1 = IssueState e2
  /\ Action e1 = Action e2
  /\ EventRepo e1 = EventRepo e2
  /\ Number e1 = Number e2
  /\ regexp.MatchString mergeRe (Body e1) = regexp.MatchString mergeRe (Body e2)
  /\ regexp.MatchString mergeCancelRe (Body e1)
     = regexp.MatchString mergeCancelRe (Body e2)
  /\ handleGenericComment github.HasLabel gc noConfig e1 []
     = handleGenericComment github.HasLabel gc scopingExample e2 [].
Proof.
  cbv zeta. do 7 (split; [reflexivity|]).
  exact (@handler_ignores_author_and_config (list Label) unit unit
           github.HasLabel (fakeClient None None None)
           noConfig scopingExample (commentOn "/merge")
           (commentBy "mallory" ("me too" ++ crlf ++ "/MERGE")) []
           eq_refl eq_refl eq_refl eq_refl eq_refl eq_refl eq_refl).
Defined.

(** "/merge" twice over on a pull request without the label. *)
Lemma handle_settles_the_label_run :
  let gc := fakeClient None None None in
  let rc := contextOf (commentOn "/merge") in
  let o1 := handle github.HasLabel true noConfig rc gc [] in
  let o2 := handle github.HasLabel true noConfig rc gc (state o1) in
  keepsLabels github.HasLabel gc
  /\ result o1 = None
  /\ github.HasLabel mergeLabel
       (fst (fst (GetIssueLabels gc "kubernetes" "test-infra" 5 (state o1))))
     = true
  /\ result o2 = None
  /\ callsOf (trace o2) = [GET]
  /\ state o2 = state o1.
Proof.
  cbv zeta. split; [apply fakeClient_keepsLabels|]. split; [reflexivity|].
  exact (@handle_settles_the_label (list Label) unit unit github.HasLabel
           (fakeClient None None None) true noConfig
           (contextOf (commentOn "/merge")) []
           (fakeClient_keepsLabels None None) eq_refl).
Defined.


End HelpAndRuns.
